(** * Yahtzee scoring rules: a shallow embedding and its properties

    The scoring rules of the game are a small class hierarchy: an abstract
    [Rule] holding three helpers ([sum], [freq], [count]) and six subclasses,
    each with one method [evalRoll] taking the five dice.  Thirteen rule
    objects are built from them and exported.

    JavaScript numbers are modelled by [Z] (every number the rules handle on
    a hand of dice is a small integer, exact as a double), arrays by lists,
    [Map] by an association list in insertion order (the code reads the
    values back in that order), [Set] by [gset Z], and a thrown exception by
    the [Throw] alternative of [result]. *)

From Stdlib Require Import ZArith List Bool Lia.
From Stdlib Require Import Strings.Ascii Strings.String Numbers.DecimalString.
From stdpp Require Import base decidable list gmap.

Local Open Scope Z_scope.

(** ** The JavaScript runtime, as far as the rules use it *)

Module JS.

(** Exceptions.  [TypeError] is what the runtime throws (here:
    [Array.prototype.reduce] on an empty array without initial value).
    [InvalidHandError] and [UnknownCategoryError] are the two errors of
    the specification's taxonomy; no class of the source constructs
    them. *)
Inductive exn : Set :=
| TypeError
| InvalidHandError
| UnknownCategoryError.

(** The outcome of a call: a returned value or a thrown exception. *)
Inductive result (A : Type) : Type :=
| Return (a : A)
| Throw (e : exn).
Arguments Return {A} a.
Arguments Throw {A} e.

Definition raises {A} (r : result A) : Prop := exists e, r = Throw e.

(** [a.reduce((prev, curr) => f(prev, curr))], without initial value:
    starts from the first element, and throws on the empty array. *)
Definition reduce (f : Z -> Z -> Z) (a : list Z) : result Z :=
  match a with
  | [] => Throw TypeError
  | x :: a' => Return (fold_left f a' x)
  end.

(** [x || d] where [x] is a number or [undefined] ([None]): [undefined]
    and [0] are falsy. *)
Definition or_else (x : option Z) (d : Z) : Z :=
  match x with
  | Some v => if v =? 0 then d else v
  | None => d
  end.

(** [x === n] where [x] is a number or [undefined]. *)
Definition strict_eq (x : option Z) (n : Z) : bool :=
  match x with
  | Some v => v =? n
  | None => false
  end.

(** [String(n)] for an integer [n]. *)
Definition to_string (n : Z) : string :=
  NilZero.string_of_int (Z.to_int n).

(** [a.sort()] without comparator: the elements are ordered by their
    string forms, compared code unit by code unit; the sort is stable.
    Written as the insertion sort. *)
Fixpoint sort_insert (x : Z) (a : list Z) : list Z :=
  match a with
  | [] => [x]
  | y :: a' =>
      if String.ltb (to_string y) (to_string x)
      then y :: sort_insert x a'
      else x :: a
  end.

Definition sort (a : list Z) : list Z := fold_right sort_insert [] a.

(** [Map]: key-value pairs in the order the keys were first inserted. *)
Module Map.
Definition t : Type := list (Z * Z).

Definition empty : t := [].

Fixpoint get (m : t) (k : Z) : option Z :=
  match m with
  | [] => None
  | (k', v) :: m' => if k' =? k then Some v else get m' k
  end.

(** Setting an existing key keeps its position. *)
Fixpoint set (m : t) (k v : Z) : t :=
  match m with
  | [] => [(k, v)]
  | (k', v') :: m' =>
      if k' =? k then (k, v) :: m' else (k', v') :: set m' k v
  end.

Definition keys (m : t) : list Z := map fst m.
Definition values (m : t) : list Z := map snd m.
End Map.

(** [Set]: only [has] and [size] are used, so the order is immaterial. *)
Module Set_.
Definition of_array (a : list Z) : gset Z := list_to_set a.
Definition has (s : gset Z) (x : Z) : bool := bool_decide (x ∈ s).
Definition size (s : gset Z) : Z := Z.of_nat (size s).
End Set_.

End JS.

Import JS.

(** ** The rules *)

Module Rules.

(** *** class Rule: the shared helpers *)

(** sum of all dice *)
Definition sum (dice : list Z) : result Z :=
  reduce (fun prev curr => prev + curr) dice.

(** The loop [for (let d of dice) freqs.set(d, (freqs.get(d) || 0) + 1)]. *)
Definition freq_loop (dice : list Z) (freqs : Map.t) : Map.t :=
  fold_left
    (fun freqs d => Map.set freqs d (or_else (Map.get freqs d) 0 + 1))
    dice freqs.

(** frequencies of dice values *)
Definition freq (dice : list Z) : list Z :=
  Map.values (freq_loop dice Map.empty).

(** # times val appears in dice *)
Definition count (dice : list Z) (val : Z) : Z :=
  Z.of_nat (length (List.filter (fun d => d =? val) dice)).

(** *** The six subclasses

    The constructor copies the parameter object onto the instance, so a
    rule object is its class together with its parameters.  In
    [SumDistro] the parameter [count] hides the helper of that name, which
    that class does not call. *)
Inductive Rule : Set :=
| TotalOneNumber (val : Z)
| SumDistro (count : Z)
| FullHouse (score : Z)
| SmallStraight (score : Z)
| LargeStraight (score : Z)
| Yahtzee (score : Z).

Definition evalRoll (this : Rule) (dice : list Z) : result Z :=
  match this with
  | TotalOneNumber val =>
      Return (val * count dice val)
  | SumDistro count =>
      if existsb (fun c => c >=? count) (freq dice)
      then sum dice
      else Return 0
  | FullHouse score =>
      let frqArr := sort (freq dice) in
      if strict_eq (frqArr !! 0%nat) 2 && strict_eq (frqArr !! 1%nat) 3
      then Return score
      else Return 0
  | SmallStraight score =>
      let d := Set_.of_array dice in
      if Set_.has d 2 && Set_.has d 3 && Set_.has d 4
         && (negb (Set_.has d 1) || negb (Set_.has d 5))
      then Return score
      else if Set_.has d 3 && Set_.has d 4 && Set_.has d 5
              && (negb (Set_.has d 2) || negb (Set_.has d 6))
      then Return score
      else Return 0
  | LargeStraight score =>
      let d := Set_.of_array dice in
      if (Set_.size d =? 5) && (negb (Set_.has d 1) || negb (Set_.has d 6))
      then Return score
      else Return 0
  | Yahtzee score =>
      if strict_eq (freq dice !! 0%nat) 5 then Return score else Return 0
  end.

(** *** The thirteen rule objects *)

(** ones, twos, etc score as sum of that value *)
Definition ones := TotalOneNumber 1.
Definition twos := TotalOneNumber 2.
Definition threes := TotalOneNumber 3.
Definition fours := TotalOneNumber 4.
Definition fives := TotalOneNumber 5.
Definition sixes := TotalOneNumber 6.

(** three/four of kind score as sum of all dice *)
Definition threeOfKind := SumDistro 3.
Definition fourOfKind := SumDistro 4.

(** full house scores as flat 25 *)
Definition fullHouse := FullHouse 25.

(** small/large straights score as 30/40 *)
Definition smallStraight := SmallStraight 30.
Definition largeStraight := LargeStraight 40.

(** yahtzee scores as 50 *)
Definition yahtzee := Yahtzee 50.

(** for chance, can view as sum of all dice, requiring at least 0 of a kind *)
Definition chance := SumDistro 0.

(** The export list: the names under which the rule objects leave the
    module, in the order of the [export] statement. *)
Definition exports : list (string * Rule) :=
  [ ("ones", ones); ("twos", twos); ("threes", threes);
    ("fours", fours); ("fives", fives); ("sixes", sixes);
    ("threeOfKind", threeOfKind); ("fourOfKind", fourOfKind);
    ("fullHouse", fullHouse);
    ("smallStraight", smallStraight); ("largeStraight", largeStraight);
    ("yahtzee", yahtzee);
    ("chance", chance) ]%string.

End Rules.

Import Rules.

(** ** The Die component *)

Module Die.

(** The props [render] reads.  [locked] and [rolling] are used as
    conditions only and are taken as booleans; [handleClick] is the
    parent's callback, of which the element keeps the argument it will be
    called with. *)
Record props : Set := {
  val : Z;
  locked : bool;
  idx : Z;
  iconNumText : list string;
  rolling : bool
}.

(** static defaultProps *)
Definition defaultProps_iconNumText : list string :=
  ["one"; "two"; "three"; "four"; "five"; "six"]%string.

(** [a[i]] for an integer [i]: [undefined] outside the array. *)
Definition at_index (a : list string) (i : Z) : option string :=
  if i <? 0 then None else nth_error a (Z.to_nat i).

(** [${x}] inside a template literal, for a string or [undefined]. *)
Definition interpolate (x : option string) : string :=
  match x with
  | Some s => s
  | None => "undefined"
  end.

(** The element [render] returns: the [<i>] with its three attributes. *)
Record element : Set := {
  className : string;
  disabled : bool;
  onClick : Z
}.

Definition render (this_props : props) : element :=
  let classes :=
    ("Die fa-solid fa-dice-"
     ++ interpolate (at_index (iconNumText this_props) (val this_props - 1))
     ++ " ")%string in
  let classes :=
    if rolling this_props then (classes ++ "Die-rolling")%string else classes in
  let classes :=
    if locked this_props then (classes ++ "Die-locked")%string else classes in
  {| className := classes;
     disabled := rolling this_props;
     onClick := idx this_props |}.

End Die.

(** ** Hands and the vocabulary of the specification *)

(** A hand: exactly five dice, each showing 1 to 6. *)
Definition valid_hand (dice : list Z) : Prop :=
  length dice = 5%nat /\ Forall (fun d => 1 <= d <= 6) dice.

(** The number of dice of a hand that show [v]. *)
Definition occurrences (dice : list Z) (v : Z) : Z :=
  Z.of_nat (count_occ Z.eq_dec dice v).

(** The sum of all dice of a hand. *)
Definition total (dice : list Z) : Z := fold_right Z.add 0 dice.

(** The six faces, and every hand of [n] dice over them. *)
Definition faces : list Z := [1; 2; 3; 4; 5; 6].

Fixpoint hands (n : nat) : list (list Z) :=
  match n with
  | O => [[]]
  | S n' => flat_map (fun d => map (cons d) (hands n')) faces
  end.

Definition result_eqb (r1 r2 : result Z) : bool :=
  match r1, r2 with
  | Return a, Return b => a =? b
  | _, _ => false
  end.

(** What the loop of [freq] keeps true of its map: the keys are distinct
    and every count is positive. *)
Definition counts_ok (m : Map.t) : Prop :=
  List.NoDup (Map.keys m) /\ Forall (fun kv => 0 < kv.2) m.

(** The upper section: each category with the value it looks for. *)
Definition upper_section : list (Z * Rule) :=
  [(1, ones); (2, twos); (3, threes); (4, fours); (5, fives); (6, sixes)].

(** Some value shows on at least [n] of the dice. *)
Definition of_a_kind (n : Z) (dice : list Z) : Prop :=
  exists v, n <= occurrences dice v.

(** The matching condition of the small straight, as the rule is worded:
    2, 3 and 4 present but not both 1 and 5, or 3, 4 and 5 present but not
    both 2 and 6. *)
Definition small_straight_cond (dice : list Z) : Prop :=
  (In 2 dice /\ In 3 dice /\ In 4 dice /\ ~ (In 1 dice /\ In 5 dice))
  \/ (In 3 dice /\ In 4 dice /\ In 5 dice /\ ~ (In 2 dice /\ In 6 dice)).

(** Four consecutive values are among the dice. *)
Definition four_consecutive (dice : list Z) : Prop :=
  (In 1 dice /\ In 2 dice /\ In 3 dice /\ In 4 dice)
  \/ (In 2 dice /\ In 3 dice /\ In 4 dice /\ In 5 dice)
  \/ (In 3 dice /\ In 4 dice /\ In 5 dice /\ In 6 dice).

(** The number of distinct values of a hand. *)
Definition distinct_values (dice : list Z) : nat := length (remove_dups dice).

(** Five distinct values, and not both 1 and 6 among them. *)
Definition is_large_straight (dice : list Z) : Prop :=
  distinct_values dice = 5%nat /\ ~ (In 1 dice /\ In 6 dice).

(** All dice of the hand show the same value. *)
Definition all_same (dice : list Z) : Prop :=
  forall a b, In a dice -> In b dice -> a = b.

(** One value shows exactly twice and another exactly three times. *)
Definition is_full_house (dice : list Z) : Prop :=
  exists a b, occurrences dice a = 2 /\ occurrences dice b = 3.

(** The same, decided by trying the six faces. *)
Definition is_full_houseb (dice : list Z) : bool :=
  existsb
    (fun a =>
       existsb (fun b => (occurrences dice a =? 2) && (occurrences dice b =? 3))
               faces)
    faces.

(** What is to be checked of the rule on one hand: its score, and that the
    sorted frequencies are exactly 2, 3 on a full house and only then. *)
Definition fullHouse_check (dice : list Z) : bool :=
  result_eqb (evalRoll fullHouse dice)
             (Return (if is_full_houseb dice then 25 else 0))
  && Bool.eqb (bool_decide (sort (freq dice) = [2; 3])) (is_full_houseb dice).

(** The parameters a rule pays out are not negative. *)
Definition payout_nonneg (r : Rule) : Prop :=
  match r with
  | TotalOneNumber val => 0 <= val
  | SumDistro _ => True
  | FullHouse score | SmallStraight score
  | LargeStraight score | Yahtzee score => 0 <= score
  end.

(** Modelled from the spec: the registry lookup, from a category name to
    the rule registered under it, if any.  The source has the rule objects
    and their export list, which is taken as the registry; the code that
    picks a rule by its name is not part of the source at hand. *)
Fixpoint lookup (categoryName : string) (registry : list (string * Rule))
  : option Rule :=
  match registry with
  | [] => None
  | (name, rule) :: registry' =>
      if String.eqb name categoryName then Some rule
      else lookup categoryName registry'
  end.

(** Modelled from the spec: the operation [score(categoryName, hand)], which
    looks the rule of [categoryName] up in the registry and evaluates it on
    [hand], and fails with [UnknownCategoryError] when the registry has no
    such name.  No function of the source at hand takes a category name. *)
Definition score (categoryName : string) (hand : list Z) : result Z :=
  match lookup categoryName exports with
  | Some rule => evalRoll rule hand
  | None => Throw UnknownCategoryError
  end.

(** The distinct values of an array, each at the place where it first
    occurs. *)
Fixpoint first_seen (dice : list Z) : list Z :=
  match dice with
  | [] => []
  | d :: dice' => d :: List.filter (fun x => negb (x =? d)) (first_seen dice')
  end.

(** The dice hold 1 to 5, or 2 to 6. *)
Definition five_consecutive (dice : list Z) : Prop :=
  incl [1; 2; 3; 4; 5] dice \/ incl [2; 3; 4; 5; 6] dice.

(** The dice hold 2, 3 and 4, or 3, 4 and 5. *)
Definition middle_run (dice : list Z) : Prop :=
  (In 2 dice /\ In 3 dice /\ In 4 dice) \/ (In 3 dice /\ In 4 dice /\ In 5 dice).

(** The classes of an element: its class name cut at the spaces, empty
    pieces dropped. *)
Fixpoint class_tokens (current : string) (s : string) : list string :=
  match s with
  | EmptyString =>
      match current with EmptyString => [] | _ => [current] end
  | String c s' =>
      if Ascii.eqb c " "%char
      then match current with
           | EmptyString => class_tokens EmptyString s'
           | _ => current :: class_tokens EmptyString s'
           end
      else class_tokens (current ++ String c EmptyString) s'
  end.

Definition class_list (s : string) : list string := class_tokens EmptyString s.

Definition has_class (name : string) (e : Die.element) : bool :=
  existsb (String.eqb name) (class_list (Die.className e)).

(** ** The helpers of class Rule *)

Section Helpers.
Implicit Types (dice : list Z) (m : Map.t) (k v c : Z).

Lemma count_occurrences dice v : count dice v = occurrences dice v.
Proof.
  unfold count, occurrences. f_equal.
  induction dice as [|d dice IH]; [reflexivity|].
  cbn [List.filter count_occ].
  destruct (Z.eq_dec d v) as [->|Hne].
  - rewrite Z.eqb_refl. cbn [length]. now rewrite IH.
  - apply Z.eqb_neq in Hne. now rewrite Hne.
Qed.

Lemma occurrences_nonneg dice v : 0 <= occurrences dice v.
Proof. unfold occurrences. lia. Qed.

Lemma occurrences_cons dice d v :
  occurrences (d :: dice) v = (if d =? v then 1 else 0) + occurrences dice v.
Proof.
  unfold occurrences. cbn [count_occ].
  destruct (Z.eq_dec d v) as [->|Hne].
  - rewrite Z.eqb_refl. lia.
  - apply Z.eqb_neq in Hne. rewrite Hne. lia.
Qed.

Lemma occurrences_pos_elem dice v : 0 < occurrences dice v <-> In v dice.
Proof.
  unfold occurrences. rewrite (count_occ_In Z.eq_dec). lia.
Qed.

Lemma fold_left_add_total dice (a : Z) :
  fold_left (fun prev curr => prev + curr) dice a = a + total dice.
Proof.
  revert a. induction dice as [|d dice IH]; intros a; simpl; [lia|].
  rewrite IH. lia.
Qed.

(** [sum] throws on the empty array only, and adds up the dice otherwise. *)
Lemma sum_total dice : dice <> [] -> sum dice = Return (total dice).
Proof.
  destruct dice as [|d dice]; [congruence|]. intros _.
  unfold sum, reduce. now rewrite fold_left_add_total.
Qed.

Lemma sum_empty : sum [] = Throw TypeError.
Proof. reflexivity. Qed.

Lemma total_nonneg dice : Forall (fun d => 1 <= d <= 6) dice -> 0 <= total dice.
Proof. induction 1; simpl; lia. Qed.

(** *** Map *)

Lemma or_else_0 (x : option Z) : or_else x 0 = default 0 x.
Proof.
  destruct x as [v|]; [|reflexivity].
  unfold or_else. destruct (Z.eqb_spec v 0); simpl; lia.
Qed.

Lemma get_set m k v k' :
  Map.get (Map.set m k v) k' = if k =? k' then Some v else Map.get m k'.
Proof.
  induction m as [|[k0 v0] m IH]; cbn [Map.get Map.set]; [reflexivity|].
  destruct (Z.eqb_spec k0 k) as [->|Hne]; cbn [Map.get].
  - destruct (k =? k'); reflexivity.
  - rewrite IH.
    destruct (Z.eqb_spec k0 k') as [->|Hne']; [|reflexivity].
    destruct (Z.eqb_spec k k'); [congruence|reflexivity].
Qed.

Lemma keys_set m k v k' :
  In k' (Map.keys (Map.set m k v)) <-> k' = k \/ In k' (Map.keys m).
Proof.
  unfold Map.keys.
  induction m as [|[k0 v0] m IH]; cbn [Map.set map fst In].
  - intuition congruence.
  - destruct (Z.eqb_spec k0 k) as [->|Hne]; cbn [map fst In].
    + intuition congruence.
    + rewrite IH. intuition congruence.
Qed.

Lemma keys_set_NoDup m k v :
  List.NoDup (Map.keys m) -> List.NoDup (Map.keys (Map.set m k v)).
Proof.
  induction m as [|[k0 v0] m IH]; cbn [Map.set].
  - intros _. repeat constructor. intros [].
  - intros Hnd. apply List.NoDup_cons_iff in Hnd as [Hk0 Hnd].
    destruct (Z.eqb_spec k0 k) as [->|Hne].
    + now apply List.NoDup_cons.
    + apply List.NoDup_cons; [|now apply IH].
      fold (Map.keys (Map.set m k v)). rewrite keys_set.
      cbn [fst]. intros [?|?]; [congruence|]. now apply Hk0.
Qed.

(** With distinct keys, the entries are what [get] finds. *)
Lemma In_get m k v :
  List.NoDup (Map.keys m) -> In (k, v) m <-> Map.get m k = Some v.
Proof.
  induction m as [|[k0 v0] m IH]; cbn [Map.get Map.keys map fst In].
  - intros _. split; [tauto|discriminate].
  - intros Hnd. apply List.NoDup_cons_iff in Hnd as [Hk0 Hnd].
    destruct (Z.eqb_spec k0 k) as [->|Hne].
    + split; [|intros [= ->]; now left].
      intros [[= ->]|Hin]; [reflexivity|].
      exfalso. apply Hk0. apply (in_map fst) in Hin. exact Hin.
    + rewrite <- (IH Hnd). split; [|tauto].
      intros [[= -> _]|Hin]; [congruence|exact Hin].
Qed.

(** *** freq *)

Lemma counts_ok_empty : counts_ok Map.empty.
Proof. split; constructor. Qed.

Lemma get_nonneg m k : Forall (fun kv => 0 < kv.2) m -> 0 <= default 0 (Map.get m k).
Proof.
  induction 1 as [|[k0 v0] m Hv _ IH]; cbn [Map.get]; [simpl; lia|].
  destruct (k0 =? k); [simpl in *; lia|exact IH].
Qed.

Lemma set_pos m k v :
  0 < v -> Forall (fun kv => 0 < kv.2) m -> Forall (fun kv => 0 < kv.2) (Map.set m k v).
Proof.
  intros Hv. induction 1 as [|[k0 v0] m Hv0 Hm IH]; cbn [Map.set].
  - now repeat constructor.
  - destruct (k0 =? k); constructor; assumption.
Qed.

Lemma counts_ok_step m d :
  counts_ok m -> counts_ok (Map.set m d (or_else (Map.get m d) 0 + 1)).
Proof.
  intros [Hnd Hpos]. split; [now apply keys_set_NoDup|].
  apply set_pos; [|exact Hpos].
  rewrite or_else_0. pose proof (get_nonneg m d Hpos). lia.
Qed.

Lemma freq_loop_cons d dice m :
  freq_loop (d :: dice) m
  = freq_loop dice (Map.set m d (or_else (Map.get m d) 0 + 1)).
Proof. reflexivity. Qed.

Lemma counts_ok_freq_loop dice m : counts_ok m -> counts_ok (freq_loop dice m).
Proof.
  revert m. induction dice as [|d dice IH]; intros m Hm; [exact Hm|].
  rewrite freq_loop_cons. apply IH. now apply counts_ok_step.
Qed.

(** The loop adds, for each key, the number of dice showing it. *)
Lemma get_freq_loop dice m k :
  default 0 (Map.get (freq_loop dice m) k)
  = default 0 (Map.get m k) + occurrences dice k.
Proof.
  revert m. induction dice as [|d dice IH]; intros m.
  - unfold occurrences. simpl. lia.
  - rewrite freq_loop_cons, IH, get_set, or_else_0, occurrences_cons.
    destruct (Z.eqb_spec d k) as [->|Hne]; simpl; lia.
Qed.

(** The first key inserted stays first; [freq(dice)[0]] is its count. *)
Lemma freq_loop_head dice k v m :
  exists m', freq_loop dice ((k, v) :: m) = (k, v + occurrences dice k) :: m'.
Proof.
  revert v m. induction dice as [|d dice IH]; intros v m.
  - exists m. unfold occurrences. simpl. do 2 f_equal. lia.
  - rewrite freq_loop_cons, occurrences_cons. cbn [Map.get Map.set].
    destruct (Z.eqb_spec k d) as [->|Hne].
    + destruct (IH (or_else (Some v) 0 + 1) m) as [m' ->].
      exists m'. rewrite or_else_0, Z.eqb_refl.
      change (default 0 (Some v)) with v. do 2 f_equal. lia.
    + destruct (IH v (Map.set m d (or_else (Map.get m d) 0 + 1))) as [m' ->].
      exists m'. destruct (Z.eqb_spec d k); [congruence|]. do 2 f_equal.
Qed.

Lemma freq_head d dice :
  freq (d :: dice) !! 0%nat = Some (occurrences (d :: dice) d).
Proof.
  unfold freq. rewrite freq_loop_cons. cbn [Map.empty Map.get Map.set].
  destruct (freq_loop_head dice d (or_else None 0 + 1) []) as [m' ->].
  rewrite occurrences_cons, Z.eqb_refl. reflexivity.
Qed.

Lemma freq_nil : freq [] = [].
Proof. reflexivity. Qed.

(** The entries of [freq dice] are the numbers of occurrences of the
    values that occur. *)
Lemma In_freq dice c :
  In c (freq dice) <-> exists k, In k dice /\ c = occurrences dice k.
Proof.
  unfold freq, Map.values.
  destruct (counts_ok_freq_loop dice Map.empty counts_ok_empty) as [Hnd Hpos].
  pose proof (fun k => get_freq_loop dice Map.empty k) as Hget.
  simpl in Hget.
  rewrite in_map_iff. split.
  - intros [[k v] [<- Hin]]. exists k. cbn [snd].
    pose proof Hin as Hv. apply (In_get _ _ _ Hnd) in Hv.
    specialize (Hget k). rewrite Hv in Hget. simpl in Hget.
    rewrite List.Forall_forall in Hpos. apply Hpos in Hin. cbn [snd] in Hin.
    split; [apply occurrences_pos_elem|]; lia.
  - intros (k & Hk & ->). exists (k, occurrences dice k). split; [reflexivity|].
    apply (In_get _ _ _ Hnd). specialize (Hget k).
    apply occurrences_pos_elem in Hk.
    destruct (Map.get (freq_loop dice Map.empty) k) as [v|]; simpl in Hget.
    + f_equal. lia.
    + lia.
Qed.

(** *** Set *)

Lemma has_In dice v : Set_.has (Set_.of_array dice) v = true <-> In v dice.
Proof.
  unfold Set_.has, Set_.of_array.
  rewrite bool_decide_eq_true, elem_of_list_to_set. apply list_elem_of_In.
Qed.

Lemma has_reflect dice v : reflect (In v dice) (Set_.has (Set_.of_array dice) v).
Proof. apply iff_reflect. symmetry. apply has_In. Qed.

(** The size of the set is the number of distinct values. *)
Lemma size_remove_dups dice :
  Set_.size (Set_.of_array dice) = Z.of_nat (length (remove_dups dice)).
Proof.
  unfold Set_.size, Set_.of_array. f_equal.
  rewrite <- (size_list_to_set (C := gset Z) (remove_dups dice))
    by apply NoDup_remove_dups.
  f_equal. apply set_eq. intros x.
  now rewrite !elem_of_list_to_set, elem_of_remove_dups.
Qed.

(** *** Every hand is one of the 7776 *)

Lemma face_In d : 1 <= d <= 6 -> In d faces.
Proof.
  intros Hd. unfold faces. cbn [In].
  assert (d = 1 \/ d = 2 \/ d = 3 \/ d = 4 \/ d = 5 \/ d = 6) by lia.
  intuition auto.
Qed.

Lemma hands_complete dice :
  Forall (fun d => 1 <= d <= 6) dice -> In dice (hands (length dice)).
Proof.
  induction 1 as [|d dice Hd _ IH]; cbn [length hands]; [now left|].
  apply in_flat_map. exists d. split; [now apply face_In|].
  now apply in_map.
Qed.

Lemma valid_hand_enumerated dice : valid_hand dice -> In dice (hands 5).
Proof.
  intros [Hlen Hall]. rewrite <- Hlen. now apply hands_complete.
Qed.

End Helpers.

(** ** Single-value totals: ones to sixes *)

Lemma TotalOneNumber_eval val dice :
  evalRoll (TotalOneNumber val) dice = Return (val * occurrences dice val).
Proof. unfold evalRoll. now rewrite count_occurrences. Qed.

(** C5: on every valid hand, each upper-section category (ones to sixes,
    looking for the value [v] in 1..6) scores [v] times the number of dice
    that show [v]. *)
Theorem upper_section_score dice v r :
  valid_hand dice ->
  In (v, r) upper_section ->
  evalRoll r dice = Return (v * occurrences dice v).
Proof.
  intros _ Hin. unfold upper_section in Hin. cbn [In] in Hin.
  repeat destruct Hin as [[= <- <-]|Hin]; try apply TotalOneNumber_eval.
  destruct Hin.
Qed.

Lemma upper_section_score_witness :
  valid_hand [5; 2; 5; 5; 1] /\ In (5, fives) upper_section /\
  evalRoll fives [5; 2; 5; 5; 1] = Return 15.
Proof.
  assert (Hv : valid_hand [5; 2; 5; 5; 1])
    by (split; [reflexivity | repeat constructor; lia]).
  assert (Hin : In (5, fives) upper_section) by (cbn; tauto).
  split; [exact Hv | split; [exact Hin|]].
  exact (upper_section_score [5; 2; 5; 5; 1] 5 fives Hv Hin).
Defined.

(** ** Distribution-threshold totals: threeOfKind, fourOfKind, chance *)

Section SumDistro.
Implicit Types (dice : list Z) (n : Z).

(** The test [freq(dice).some(c => c >= n)]. *)
Lemma some_freq n dice :
  existsb (fun c => c >=? n) (freq dice) = true
  <-> exists v, In v dice /\ n <= occurrences dice v.
Proof.
  rewrite existsb_exists. split.
  - intros (c & Hc & Hge). apply In_freq in Hc as (v & Hv & ->).
    exists v. split; [exact Hv|]. now apply Z.geb_le.
  - intros (v & Hv & Hge). exists (occurrences dice v). split.
    + apply In_freq. now exists v.
    + now apply Z.geb_le.
Qed.

Lemma some_freq_pos n dice :
  0 < n -> existsb (fun c => c >=? n) (freq dice) = true <-> of_a_kind n dice.
Proof.
  intros Hn. rewrite some_freq. unfold of_a_kind. split.
  - intros (v & _ & Hge). now exists v.
  - intros (v & Hge). exists v. split; [|exact Hge].
    apply occurrences_pos_elem. lia.
Qed.

Lemma some_freq_nonpos n dice :
  n <= 0 -> existsb (fun c => c >=? n) (freq dice) = true <-> dice <> [].
Proof.
  intros Hn. rewrite some_freq. split.
  - intros (v & Hv & _) ->. destruct Hv.
  - destruct dice as [|d dice]; [congruence|]. intros _.
    exists d. split; [now left|].
    pose proof (occurrences_nonneg (d :: dice) d). lia.
Qed.

(** The sum is only asked for when some count passed the test, that is on
    a hand that has a die: [sum] cannot throw here. *)
Lemma SumDistro_eval n dice :
  evalRoll (SumDistro n) dice
  = Return (if existsb (fun c => c >=? n) (freq dice) then total dice else 0).
Proof.
  unfold evalRoll.
  destruct (existsb _ (freq dice)) eqn:E; [|reflexivity].
  apply sum_total. intros ->. rewrite freq_nil in E. discriminate.
Qed.

Lemma SumDistro_hit n dice :
  0 < n -> of_a_kind n dice ->
  evalRoll (SumDistro n) dice = Return (total dice).
Proof.
  intros Hn Hk. rewrite SumDistro_eval.
  apply (some_freq_pos n dice Hn) in Hk. now rewrite Hk.
Qed.

Lemma SumDistro_miss n dice :
  0 < n -> ~ of_a_kind n dice ->
  evalRoll (SumDistro n) dice = Return 0.
Proof.
  intros Hn Hk. rewrite SumDistro_eval.
  destruct (existsb _ (freq dice)) eqn:E; [|reflexivity].
  exfalso. apply Hk. now apply (some_freq_pos n dice Hn).
Qed.

Lemma SumDistro_always n dice :
  n <= 0 -> evalRoll (SumDistro n) dice = Return (total dice).
Proof.
  intros Hn. rewrite SumDistro_eval.
  destruct (existsb _ (freq dice)) eqn:E; [reflexivity|].
  destruct dice as [|d dice]; [reflexivity|].
  assert (d :: dice <> []) as Hne by discriminate.
  apply (some_freq_nonpos n _ Hn) in Hne. congruence.
Qed.

End SumDistro.

(** C6: on every valid hand, threeOfKind scores the sum of the five dice
    when some value shows at least 3 times and 0 otherwise, fourOfKind the
    same with 4, and chance always scores the sum of the five dice. *)
Theorem sum_distro_scores dice :
  valid_hand dice ->
  (of_a_kind 3 dice -> evalRoll threeOfKind dice = Return (total dice)) /\
  (~ of_a_kind 3 dice -> evalRoll threeOfKind dice = Return 0) /\
  (of_a_kind 4 dice -> evalRoll fourOfKind dice = Return (total dice)) /\
  (~ of_a_kind 4 dice -> evalRoll fourOfKind dice = Return 0) /\
  evalRoll chance dice = Return (total dice).
Proof.
  intros _. unfold threeOfKind, fourOfKind, chance.
  repeat split.
  - apply SumDistro_hit. lia.
  - apply SumDistro_miss. lia.
  - apply SumDistro_hit. lia.
  - apply SumDistro_miss. lia.
  - apply SumDistro_always. lia.
Qed.

Lemma sum_distro_scores_witness :
  valid_hand [5; 5; 5; 2; 1] /\ of_a_kind 3 [5; 5; 5; 2; 1] /\
  evalRoll threeOfKind [5; 5; 5; 2; 1] = Return 18.
Proof.
  assert (Hv : valid_hand [5; 5; 5; 2; 1])
    by (split; [reflexivity | repeat constructor; lia]).
  assert (Hk : of_a_kind 3 [5; 5; 5; 2; 1]) by (exists 5; vm_compute; discriminate).
  split; [exact Hv | split; [exact Hk|]].
  exact (proj1 (sum_distro_scores [5; 5; 5; 2; 1] Hv) Hk).
Defined.

(** ** Straights *)

Section Straights.
Implicit Types (dice : list Z).

(** Case analysis on the presence of each face in the set of the dice. *)
Ltac by_faces dice :=
  destruct (has_reflect dice 1), (has_reflect dice 2), (has_reflect dice 3),
           (has_reflect dice 4), (has_reflect dice 5), (has_reflect dice 6);
  cbn [andb orb negb]; try reflexivity; try tauto.

Lemma SmallStraight_hit score dice :
  small_straight_cond dice -> evalRoll (SmallStraight score) dice = Return score.
Proof.
  unfold small_straight_cond, evalRoll. cbv zeta. intros H. by_faces dice.
Qed.

Lemma SmallStraight_miss score dice :
  ~ small_straight_cond dice -> evalRoll (SmallStraight score) dice = Return 0.
Proof.
  unfold small_straight_cond, evalRoll. cbv zeta. intros H. by_faces dice.
Qed.

(** Five dice cannot show all six faces. *)
Lemma not_all_faces dice :
  (length dice <= 5)%nat -> ~ (forall d, In d faces -> In d dice).
Proof.
  intros Hlen Hall.
  assert (List.NoDup faces) as Hnd.
  { unfold faces. repeat constructor; cbn [In]; lia. }
  pose proof (List.NoDup_incl_length Hnd Hall) as Hle.
  cbn [faces length] in Hle. lia.
Qed.

(** On five dice, a run of four always matches. *)
Lemma four_consecutive_small_straight dice :
  (length dice <= 5)%nat -> four_consecutive dice -> small_straight_cond dice.
Proof.
  intros Hlen. pose proof (not_all_faces dice Hlen) as Hnot.
  unfold four_consecutive, small_straight_cond.
  destruct (has_reflect dice 1), (has_reflect dice 2),
           (has_reflect dice 5), (has_reflect dice 6); try tauto.
  intros H. exfalso. apply Hnot. unfold faces. cbn [In].
  intros d Hd. repeat destruct Hd as [<-|Hd]; tauto.
Qed.

Lemma LargeStraight_hit score dice :
  is_large_straight dice -> evalRoll (LargeStraight score) dice = Return score.
Proof.
  unfold is_large_straight, distinct_values, evalRoll. cbv zeta.
  rewrite size_remove_dups. intros [-> H].
  change (Z.of_nat 5 =? 5) with true. by_faces dice.
Qed.

Lemma LargeStraight_miss score dice :
  ~ is_large_straight dice -> evalRoll (LargeStraight score) dice = Return 0.
Proof.
  unfold is_large_straight, distinct_values, evalRoll. cbv zeta.
  rewrite size_remove_dups. intros H.
  destruct (Z.eqb_spec (Z.of_nat (length (remove_dups dice))) 5) as [E|E];
    [|reflexivity].
  assert (length (remove_dups dice) = 5%nat) by lia. by_faces dice.
Qed.

End Straights.

(** C4: on every valid hand, smallStraight scores 30 exactly when the dice
    hold 2, 3 and 4 and not both 1 and 5, or hold 3, 4 and 5 and not both 2
    and 6; otherwise it scores 0. *)
Theorem smallStraight_score dice :
  valid_hand dice ->
  (small_straight_cond dice -> evalRoll smallStraight dice = Return 30) /\
  (~ small_straight_cond dice -> evalRoll smallStraight dice = Return 0).
Proof.
  intros _. split.
  - apply SmallStraight_hit.
  - apply SmallStraight_miss.
Qed.

Lemma smallStraight_score_witness :
  valid_hand [1; 2; 3; 4; 6] /\ small_straight_cond [1; 2; 3; 4; 6] /\
  evalRoll smallStraight [1; 2; 3; 4; 6] = Return 30.
Proof.
  assert (Hv : valid_hand [1; 2; 3; 4; 6])
    by (split; [reflexivity | repeat constructor; lia]).
  assert (Hc : small_straight_cond [1; 2; 3; 4; 6]).
  { left. cbn [In]. repeat split; try tauto.
    intros [_ H5]. repeat destruct H5 as [H5|H5]; try discriminate H5.
    exact H5. }
  split; [exact Hv | split; [exact Hc|]].
  exact (proj1 (smallStraight_score [1; 2; 3; 4; 6] Hv) Hc).
Defined.

(** C3: the claim reads the small straight as a run of four consecutive
    values.  The rule does score 30 on every such run
    ([four_consecutive_small_straight]), but it also scores 30 on the valid
    hand 2 3 4 4 4, which holds only three consecutive values. *)
Theorem smallStraight_three_run :
  valid_hand [2; 3; 4; 4; 4] /\
  ~ four_consecutive [2; 3; 4; 4; 4] /\
  evalRoll smallStraight [2; 3; 4; 4; 4] = Return 30.
Proof.
  split; [split; [reflexivity | repeat constructor; lia]|].
  split; [|reflexivity].
  unfold four_consecutive. cbn [In].
  intros [(H & _)|[(_ & _ & _ & H)|(_ & _ & H & _)]];
    repeat destruct H as [H|H]; try discriminate H; exact H.
Qed.

(** C8: on every valid hand, largeStraight scores 40 exactly when the hand
    has five distinct values and not both 1 and 6, and 0 otherwise; so the
    hand 2 3 4 5 6 scores 40 and the hand 1 2 3 4 6 scores 0. *)
Theorem largeStraight_score dice :
  valid_hand dice ->
  (is_large_straight dice -> evalRoll largeStraight dice = Return 40) /\
  (~ is_large_straight dice -> evalRoll largeStraight dice = Return 0) /\
  evalRoll largeStraight [2; 3; 4; 5; 6] = Return 40 /\
  evalRoll largeStraight [1; 2; 3; 4; 6] = Return 0.
Proof.
  intros _. repeat split.
  - apply LargeStraight_hit.
  - apply LargeStraight_miss.
Qed.

Lemma largeStraight_score_witness :
  valid_hand [1; 2; 3; 4; 6] /\ ~ is_large_straight [1; 2; 3; 4; 6] /\
  evalRoll largeStraight [1; 2; 3; 4; 6] = Return 0.
Proof.
  assert (Hv : valid_hand [1; 2; 3; 4; 6])
    by (split; [reflexivity | repeat constructor; lia]).
  assert (Hc : ~ is_large_straight [1; 2; 3; 4; 6]).
  { intros [_ H]. apply H. cbn [In]. tauto. }
  split; [exact Hv | split; [exact Hc|]].
  exact (proj1 (proj2 (largeStraight_score [1; 2; 3; 4; 6] Hv)) Hc).
Defined.

(** ** Yahtzee *)

Section Yahtzee.
Implicit Types (dice : list Z) (d : Z).

Lemma all_same_repeat d dice :
  all_same (d :: dice) -> d :: dice = repeat d (length (d :: dice)).
Proof.
  intros Hs. apply (count_occ_unique Z.eq_dec).
  assert (Forall (eq d) (d :: dice)) as Hall.
  { apply List.Forall_forall. intros x Hx. apply Hs; [now left|exact Hx]. }
  clear Hs. induction Hall as [|x l <- _ IH]; [reflexivity|].
  cbn [count_occ length]. destruct (Z.eq_dec d d); congruence.
Qed.

Lemma occurrences_all d dice :
  occurrences (d :: dice) d = Z.of_nat (length (d :: dice))
  <-> all_same (d :: dice).
Proof.
  split.
  - unfold occurrences. intros H. apply Nat2Z.inj in H.
    apply (count_occ_unique Z.eq_dec) in H. rewrite H.
    intros a b Ha Hb. apply repeat_spec in Ha, Hb. congruence.
  - intros Hs. rewrite (all_same_repeat d dice Hs) at 1.
    unfold occurrences. f_equal. now apply count_occ_repeat_eq.
Qed.

(** [freq(dice)[0]] is the count of the first die; on the empty array it
    is [undefined]. *)
Lemma Yahtzee_eval score d dice :
  evalRoll (Yahtzee score) (d :: dice)
  = Return (if occurrences (d :: dice) d =? 5 then score else 0).
Proof.
  unfold evalRoll. rewrite freq_head. cbn [strict_eq].
  now destruct (occurrences (d :: dice) d =? 5).
Qed.

Lemma freq_five d : freq [d; d; d; d; d] = [5].
Proof.
  unfold freq, freq_loop. cbn [fold_left Map.empty Map.get Map.set].
  repeat (rewrite Z.eqb_refl; cbn [fold_left Map.get Map.set or_else]).
  reflexivity.
Qed.

Lemma all_same_freq dice :
  length dice = 5%nat -> all_same dice <-> freq dice = [5].
Proof.
  intros Hlen. destruct dice as [|d dice]; [discriminate|]. split.
  - intros Hs. rewrite (all_same_repeat d dice Hs), Hlen. apply freq_five.
  - intros Hf. apply occurrences_all. rewrite Hlen.
    pose proof (freq_head d dice) as Hh. rewrite Hf in Hh.
    now injection Hh as <-.
Qed.

End Yahtzee.

(** C9: on every valid hand, yahtzee scores 50 exactly when all five dice
    are identical, that is when the frequencies are the single entry 5, and
    0 otherwise. *)
Theorem yahtzee_score dice :
  valid_hand dice ->
  (all_same dice <-> freq dice = [5]) /\
  (all_same dice -> evalRoll yahtzee dice = Return 50) /\
  (~ all_same dice -> evalRoll yahtzee dice = Return 0).
Proof.
  intros [Hlen _]. split; [now apply all_same_freq|].
  destruct dice as [|d dice]; [discriminate|].
  unfold yahtzee. rewrite Yahtzee_eval.
  pose proof (occurrences_all d dice) as Hall. rewrite Hlen in Hall.
  change (Z.of_nat 5) with 5 in Hall.
  destruct (Z.eqb_spec (occurrences (d :: dice) d) 5) as [E|E]; split;
    intros H; try reflexivity; tauto.
Qed.

Lemma yahtzee_score_witness :
  valid_hand [4; 4; 4; 4; 4] /\ all_same [4; 4; 4; 4; 4] /\
  evalRoll yahtzee [4; 4; 4; 4; 4] = Return 50.
Proof.
  assert (Hv : valid_hand [4; 4; 4; 4; 4])
    by (split; [reflexivity | repeat constructor; lia]).
  assert (Hs : all_same [4; 4; 4; 4; 4]).
  { intros a b Ha Hb. cbn [In] in Ha, Hb.
    repeat destruct Ha as [Ha|Ha]; repeat destruct Hb as [Hb|Hb];
      congruence || contradiction. }
  split; [exact Hv | split; [exact Hs|]].
  exact (proj1 (proj2 (yahtzee_score [4; 4; 4; 4; 4] Hv)) Hs).
Defined.

(** ** Full house *)

Section FullHouse.
Implicit Types (dice : list Z).

Lemma is_full_houseb_spec dice :
  Forall (fun d => 1 <= d <= 6) dice ->
  is_full_houseb dice = true <-> is_full_house dice.
Proof.
  intros Hall. unfold is_full_houseb, is_full_house. rewrite existsb_exists.
  assert (forall v, 0 < occurrences dice v -> In v faces) as Hface.
  { intros v Hv. apply occurrences_pos_elem in Hv. apply face_In.
    rewrite List.Forall_forall in Hall. now apply Hall. }
  split.
  - intros (a & _ & Hb). apply existsb_exists in Hb as (b & _ & Hab).
    apply andb_true_iff in Hab as [Ha Hb].
    exists a, b. split; now apply Z.eqb_eq.
  - intros (a & b & Ha & Hb). exists a. split; [apply Hface; lia|].
    apply existsb_exists. exists b. split; [apply Hface; lia|].
    apply andb_true_iff. split; now apply Z.eqb_eq.
Qed.

Lemma result_eqb_eq (r : result Z) n : result_eqb r (Return n) = true -> r = Return n.
Proof.
  destruct r as [a|e]; cbn [result_eqb]; [|discriminate].
  intros H. apply Z.eqb_eq in H. now subst.
Qed.

(** The rule is run on each of the 7776 hands. *)
Lemma fullHouse_checked : forallb fullHouse_check (hands 5) = true.
Proof. vm_compute. reflexivity. Qed.

Lemma fullHouse_check_valid dice : valid_hand dice -> fullHouse_check dice = true.
Proof.
  intros Hv. apply valid_hand_enumerated in Hv.
  pose proof fullHouse_checked as Hall.
  rewrite forallb_forall in Hall. now apply Hall.
Qed.

End FullHouse.

(** C7: on every valid hand, fullHouse scores 25 exactly when the sorted
    frequencies are 2, 3 (one value shows exactly twice and another exactly
    three times), and 0 otherwise. *)
Theorem fullHouse_score dice :
  valid_hand dice ->
  (is_full_house dice <-> sort (freq dice) = [2; 3]) /\
  (is_full_house dice -> evalRoll fullHouse dice = Return 25) /\
  (~ is_full_house dice -> evalRoll fullHouse dice = Return 0).
Proof.
  intros Hv. pose proof (fullHouse_check_valid dice Hv) as Hc.
  destruct Hv as [_ Hall]. pose proof (is_full_houseb_spec dice Hall) as Hb.
  unfold fullHouse_check in Hc. apply andb_true_iff in Hc as [Hscore Hsort].
  apply result_eqb_eq in Hscore. apply Bool.eqb_prop in Hsort.
  destruct (is_full_houseb dice).
  - apply bool_decide_eq_true in Hsort. intuition.
  - apply bool_decide_eq_false in Hsort. intuition congruence.
Qed.

Lemma fullHouse_score_witness :
  valid_hand [2; 2; 3; 3; 3] /\ is_full_house [2; 2; 3; 3; 3] /\
  evalRoll fullHouse [2; 2; 3; 3; 3] = Return 25.
Proof.
  assert (Hv : valid_hand [2; 2; 3; 3; 3])
    by (split; [reflexivity | repeat constructor; lia]).
  assert (Hf : is_full_house [2; 2; 3; 3; 3])
    by (exists 2, 3; split; reflexivity).
  split; [exact Hv | split; [exact Hf|]].
  exact (proj1 (proj2 (fullHouse_score [2; 2; 3; 3; 3] Hv)) Hf).
Defined.

(** ** Every rule on every hand *)

Section AllRules.
Implicit Types (dice : list Z) (r : Rule).

(** No rule throws, whatever the array of dice: nothing checks the hand,
    and the one call that could throw, [sum] on the empty array, is never
    reached. *)
Lemma evalRoll_returns r dice : exists n, evalRoll r dice = Return n.
Proof.
  destruct r as [val|n|score|score|score|score].
  - eexists. apply TotalOneNumber_eval.
  - eexists. apply SumDistro_eval.
  - cbn [evalRoll]. cbv zeta. destruct (_ && _); eexists; reflexivity.
  - cbn [evalRoll]. cbv zeta.
    destruct (_ && _); [|destruct (_ && _)]; eexists; reflexivity.
  - cbn [evalRoll]. cbv zeta. destruct (_ && _); eexists; reflexivity.
  - cbn [evalRoll]. destruct (strict_eq _ _); eexists; reflexivity.
Qed.

Lemma evalRoll_lower_bound r dice n :
  payout_nonneg r -> Forall (fun d => 1 <= d <= 6) dice ->
  evalRoll r dice = Return n -> 0 <= n.
Proof.
  intros Hr Hd.
  destruct r as [val|k|score|score|score|score]; cbn [payout_nonneg] in Hr.
  - rewrite TotalOneNumber_eval. intros [= <-].
    pose proof (occurrences_nonneg dice val). nia.
  - rewrite SumDistro_eval. intros [= <-].
    pose proof (total_nonneg dice Hd). destruct (existsb _ _); lia.
  - cbn [evalRoll]. cbv zeta. destruct (_ && _); intros [= <-]; lia.
  - cbn [evalRoll]. cbv zeta.
    destruct (_ && _); [|destruct (_ && _)]; intros [= <-]; lia.
  - cbn [evalRoll]. cbv zeta. destruct (_ && _); intros [= <-]; lia.
  - cbn [evalRoll]. destruct (strict_eq _ _); intros [= <-]; lia.
Qed.

Lemma exports_payout_nonneg name r : In (name, r) exports -> payout_nonneg r.
Proof.
  unfold exports. cbn [In]. intros H.
  repeat destruct H as [[= <- <-]|H]; try contradiction; cbn; try lia; exact I.
Qed.

End AllRules.

(** C10: on every valid hand, each of the thirteen exported rules returns
    an integer that is at least 0. *)
Theorem evalRoll_nonneg dice name r :
  valid_hand dice ->
  In (name, r) exports ->
  exists n, evalRoll r dice = Return n /\ 0 <= n.
Proof.
  intros [_ Hd] Hin. destruct (evalRoll_returns r dice) as [n Hn].
  exists n. split; [exact Hn|].
  apply (evalRoll_lower_bound r dice n); [|exact Hd|exact Hn].
  now apply (exports_payout_nonneg name).
Qed.

Lemma evalRoll_nonneg_witness :
  valid_hand [1; 2; 3; 5; 6] /\ In ("smallStraight"%string, smallStraight) exports /\
  exists n, evalRoll smallStraight [1; 2; 3; 5; 6] = Return n /\ 0 <= n.
Proof.
  assert (Hv : valid_hand [1; 2; 3; 5; 6])
    by (split; [reflexivity | repeat constructor; lia]).
  assert (Hin : In ("smallStraight"%string, smallStraight) exports)
    by (unfold exports; cbn [In]; tauto).
  split; [exact Hv | split; [exact Hin|]].
  exact (evalRoll_nonneg [1; 2; 3; 5; 6] "smallStraight" smallStraight Hv Hin).
Defined.

(** ** Malformed hands *)

(** C1, as the claim has it, fails: no rule checks its hand.  On the four
    dice 1 1 1 1 the rule ones returns 4, and on the hand 7 1 1 1 1 the rule
    chance returns 11; neither call raises. *)
Lemma malformed_hand_is_scored :
  ~ valid_hand [1; 1; 1; 1] /\
  evalRoll ones [1; 1; 1; 1] = Return 4 /\
  ~ raises (evalRoll ones [1; 1; 1; 1]) /\
  ~ valid_hand [7; 1; 1; 1; 1] /\
  evalRoll chance [7; 1; 1; 1; 1] = Return 11 /\
  ~ raises (evalRoll chance [7; 1; 1; 1; 1]).
Proof.
  repeat split.
  - intros [Hlen _]. discriminate Hlen.
  - intros [e He]. discriminate He.
  - intros [_ Hall]. apply Forall_inv in Hall. lia.
  - intros [e He]. discriminate He.
Qed.

(** C1, amended: on every hand that is not five values in 1..6, each of the
    thirteen exported rules returns a number and raises nothing. *)
Theorem malformed_hand_returns dice name r :
  ~ valid_hand dice ->
  In (name, r) exports ->
  (exists n, evalRoll r dice = Return n) /\ ~ raises (evalRoll r dice).
Proof.
  intros _ _. destruct (evalRoll_returns r dice) as [n Hn].
  split; [now exists n|].
  intros [e He]. congruence.
Qed.

Lemma malformed_hand_returns_witness :
  ~ valid_hand [] /\ In ("chance"%string, chance) exports /\
  (exists n, evalRoll chance [] = Return n) /\ ~ raises (evalRoll chance []).
Proof.
  assert (Hv : ~ valid_hand []) by (intros [Hlen _]; discriminate Hlen).
  assert (Hin : In ("chance"%string, chance) exports)
    by (unfold exports; cbn [In]; tauto).
  split; [exact Hv | split; [exact Hin|]].
  exact (malformed_hand_returns [] "chance" chance Hv Hin).
Defined.

(** ** Looking a category up by name *)

Lemma lookup_None categoryName registry :
  ~ In categoryName (map fst registry) -> lookup categoryName registry = None.
Proof.
  induction registry as [|[name rule] registry IH]; cbn [lookup map fst In];
    [reflexivity|].
  intros Hnot. destruct (String.eqb_spec name categoryName) as [->|_].
  - exfalso. apply Hnot. now left.
  - apply IH. intros Hin. apply Hnot. now right.
Qed.

Lemma lookup_Some name rule registry :
  List.NoDup (map fst registry) -> In (name, rule) registry ->
  lookup name registry = Some rule.
Proof.
  induction registry as [|[name' rule'] registry IH]; cbn [lookup map fst In];
    [tauto|].
  intros Hnd. apply List.NoDup_cons_iff in Hnd as [Hfresh Hnd].
  intros [[= -> ->]|Hin].
  - now rewrite String.eqb_refl.
  - destruct (String.eqb_spec name' name) as [->|_]; [|now apply IH].
    exfalso. apply Hfresh. now apply (in_map fst _ (name, rule)).
Qed.

Lemma exports_names_NoDup : List.NoDup (map fst exports).
Proof.
  unfold exports. cbn [map fst].
  repeat (apply List.NoDup_cons;
          [cbn [In]; intros H; repeat destruct H as [H|H];
           try discriminate H; exact H|]).
  apply List.NoDup_nil.
Qed.

(** A registered name is scored by its own rule. *)
Lemma score_registered name rule hand :
  In (name, rule) exports -> score name hand = evalRoll rule hand.
Proof.
  intros Hin. unfold score.
  now rewrite (lookup_Some name rule exports exports_names_NoDup Hin).
Qed.

(** C2: for every category name that is not one of the thirteen registered
    names, [score] raises [UnknownCategoryError], whatever the hand; no rule
    is evaluated in its place. *)
Theorem score_unknown_category categoryName hand :
  ~ In categoryName (map fst exports) ->
  score categoryName hand = Throw UnknownCategoryError.
Proof.
  intros Hnot. unfold score. now rewrite (lookup_None _ _ Hnot).
Qed.

Lemma score_unknown_category_witness :
  ~ In "sevens"%string (map fst exports) /\
  score "sevens" [1; 2; 3; 4; 5] = Throw UnknownCategoryError.
Proof.
  assert (Hnot : ~ In "sevens"%string (map fst exports)).
  { unfold exports. cbn [map fst In].
    intros H. repeat destruct H as [H|H]; try discriminate H. exact H. }
  split; [exact Hnot|].
  exact (score_unknown_category "sevens" [1; 2; 3; 4; 5] Hnot).
Defined.

(** * Further properties of the rules *)

(** ** The helpers on arbitrary arrays *)


(** X17: [count] lies between 0 and the length of the array, and is 0
    exactly when the value does not occur in it. *)
Theorem count_bounds (dice : list Z) (val : Z) :
  0 <= count dice val <= Z.of_nat (length dice) /\
  (count dice val = 0 <-> ~ In val dice).
Proof.
  rewrite count_occurrences. unfold occurrences.
  pose proof (count_occ_bound Z.eq_dec val dice) as Hle.
  split; [lia|].
  rewrite (count_occ_not_In Z.eq_dec). lia.
Qed.

Section FreqOrder.
Implicit Types (dice : list Z) (m : Map.t) (k v : Z).

Lemma keys_set_eq m k v :
  Map.keys (Map.set m k v)
  = if existsb (Z.eqb k) (Map.keys m) then Map.keys m else Map.keys m ++ [k].
Proof.
  unfold Map.keys.
  induction m as [|[k0 v0] m IH]; cbn [Map.set map fst existsb app];
    [reflexivity|].
  rewrite (Z.eqb_sym k k0).
  destruct (Z.eqb_spec k0 k) as [->|Hne]; cbn [map fst orb]; [reflexivity|].
  rewrite IH. now destruct (existsb (Z.eqb k) (map fst m)).
Qed.

Lemma filter_first_seen_known (seen : list Z) d (l : list Z) :
  existsb (Z.eqb d) seen = true ->
  List.filter (fun x => negb (existsb (Z.eqb x) seen))
              (List.filter (fun x => negb (x =? d)) l)
  = List.filter (fun x => negb (existsb (Z.eqb x) seen)) l.
Proof.
  intros Hd. induction l as [|x l IH]; cbn [List.filter]; [reflexivity|].
  destruct (Z.eqb_spec x d) as [->|Hne]; cbn [negb List.filter].
  - now rewrite Hd, IH.
  - now rewrite IH.
Qed.

Lemma filter_first_seen_new (seen : list Z) d (l : list Z) :
  List.filter (fun x => negb (existsb (Z.eqb x) (seen ++ [d]))) l
  = List.filter (fun x => negb (existsb (Z.eqb x) seen))
                (List.filter (fun x => negb (x =? d)) l).
Proof.
  induction l as [|x l IH]; cbn [List.filter]; [reflexivity|].
  rewrite existsb_app. cbn [existsb]. rewrite orb_false_r.
  destruct (Z.eqb_spec x d) as [->|Hne]; cbn [negb List.filter].
  - now rewrite orb_true_r.
  - now rewrite orb_false_r, IH.
Qed.

(** The keys of the map after the loop: those it had, then the new values
    in the order they were first met. *)
Lemma keys_freq_loop dice m :
  Map.keys (freq_loop dice m)
  = Map.keys m
    ++ List.filter (fun x => negb (existsb (Z.eqb x) (Map.keys m)))
                   (first_seen dice).
Proof.
  revert m. induction dice as [|d dice IH]; intros m.
  - cbn [freq_loop fold_left first_seen List.filter]. now rewrite app_nil_r.
  - rewrite freq_loop_cons, IH, keys_set_eq. cbn [first_seen List.filter].
    destruct (existsb (Z.eqb d) (Map.keys m)) eqn:Hd; cbn [negb].
    + now rewrite filter_first_seen_known.
    + now rewrite <- app_assoc, filter_first_seen_new.
Qed.

Lemma values_of_keys m (f : Z -> Z) :
  List.NoDup (Map.keys m) ->
  (forall k, In k (Map.keys m) -> default 0 (Map.get m k) = f k) ->
  Map.values m = map f (Map.keys m).
Proof.
  unfold Map.values, Map.keys.
  induction m as [|[k0 v0] m IH]; cbn [map fst snd]; [reflexivity|].
  intros Hnd Hget. apply List.NoDup_cons_iff in Hnd as [Hk0 Hnd]. f_equal.
  - specialize (Hget k0 (or_introl eq_refl)). cbn [Map.get] in Hget.
    rewrite Z.eqb_refl in Hget. exact Hget.
  - apply IH; [exact Hnd|]. intros k Hk.
    specialize (Hget k (or_intror Hk)). cbn [Map.get] in Hget.
    destruct (Z.eqb_spec k0 k) as [->|_]; [contradiction|exact Hget].
Qed.

Lemma total_values_set m k v :
  total (Map.values (Map.set m k v))
  = total (Map.values m) - default 0 (Map.get m k) + v.
Proof.
  unfold Map.values.
  induction m as [|[k0 v0] m IH]; cbn [Map.set Map.get map snd total fold_right].
  - simpl. lia.
  - destruct (Z.eqb_spec k0 k) as [->|Hne]; cbn [map snd fold_right].
    + simpl. lia.
    + fold (total (map snd (Map.set m k v))). fold (total (map snd m)).
      rewrite IH. lia.
Qed.

Lemma total_freq_loop dice m :
  total (Map.values (freq_loop dice m))
  = total (Map.values m) + Z.of_nat (length dice).
Proof.
  revert m. induction dice as [|d dice IH]; intros m.
  - cbn [freq_loop fold_left length]. lia.
  - rewrite freq_loop_cons, IH, total_values_set, or_else_0.
    cbn [length]. lia.
Qed.

End FreqOrder.

(** X2: [freq] lists, for each distinct value of the array in the order of
    first occurrence, how many times the value occurs. *)
Theorem freq_first_seen (dice : list Z) :
  freq dice = map (occurrences dice) (first_seen dice).
Proof.
  unfold freq.
  destruct (counts_ok_freq_loop dice Map.empty counts_ok_empty) as [Hnd _].
  rewrite (values_of_keys _ (occurrences dice) Hnd).
  - rewrite keys_freq_loop. cbn [Map.empty Map.keys map app existsb negb].
    now rewrite filter_true.
  - intros k _. rewrite get_freq_loop. simpl. lia.
Qed.

Lemma freq_positive (dice : list Z) : Forall (fun c => 1 <= c) (freq dice).
Proof.
  apply List.Forall_forall. intros c Hc.
  apply In_freq in Hc as (k & Hk & ->).
  apply occurrences_pos_elem in Hk. lia.
Qed.

(** X3: the frequencies are all at least 1 and add up to the length of the
    array. *)
Theorem freq_positive_total (dice : list Z) :
  Forall (fun c => 1 <= c) (freq dice) /\
  total (freq dice) = Z.of_nat (length dice).
Proof.
  split; [apply freq_positive|].
  unfold freq. rewrite total_freq_loop. simpl. lia.
Qed.

(** ** How the categories relate *)

Section Relations.
Implicit Types (dice : list Z).

Lemma weighted_occurrences dice :
  Forall (fun d => 1 <= d <= 6) dice ->
  1 * occurrences dice 1 + 2 * occurrences dice 2 + 3 * occurrences dice 3
  + 4 * occurrences dice 4 + 5 * occurrences dice 5 + 6 * occurrences dice 6
  = total dice.
Proof.
  induction 1 as [|d dice Hd _ IH]; [reflexivity|].
  rewrite !occurrences_cons. cbn [total fold_right]. fold (total dice).
  destruct (Z.eqb_spec d 1), (Z.eqb_spec d 2), (Z.eqb_spec d 3),
           (Z.eqb_spec d 4), (Z.eqb_spec d 5), (Z.eqb_spec d 6); lia.
Qed.

Lemma occurrences_le_length dice v : occurrences dice v <= Z.of_nat (length dice).
Proof.
  unfold occurrences. pose proof (count_occ_bound Z.eq_dec v dice). lia.
Qed.

Lemma total_le dice :
  Forall (fun d => 1 <= d <= 6) dice -> total dice <= 6 * Z.of_nat (length dice).
Proof.
  induction 1 as [|d dice Hd _ IH]; [simpl; lia|].
  cbn [total fold_right length]. fold (total dice). lia.
Qed.

End Relations.

(** X4: on dice showing 1 to 6, the six upper-section scores add up to the
    score of chance. *)
Theorem upper_section_adds_up (dice : list Z) :
  Forall (fun d => 1 <= d <= 6) dice ->
  exists s1 s2 s3 s4 s5 s6,
    evalRoll ones dice = Return s1 /\ evalRoll twos dice = Return s2 /\
    evalRoll threes dice = Return s3 /\ evalRoll fours dice = Return s4 /\
    evalRoll fives dice = Return s5 /\ evalRoll sixes dice = Return s6 /\
    evalRoll chance dice = Return (s1 + s2 + s3 + s4 + s5 + s6).
Proof.
  intros Hd.
  exists (1 * occurrences dice 1), (2 * occurrences dice 2),
         (3 * occurrences dice 3), (4 * occurrences dice 4),
         (5 * occurrences dice 5), (6 * occurrences dice 6).
  unfold ones, twos, threes, fours, fives, sixes, chance.
  rewrite !TotalOneNumber_eval, (SumDistro_always 0 dice) by lia.
  rewrite (weighted_occurrences dice Hd). repeat split.
Qed.

Lemma upper_section_adds_up_witness :
  Forall (fun d => 1 <= d <= 6) [6; 1; 6; 3; 3] /\
  exists s1 s2 s3 s4 s5 s6,
    evalRoll ones [6; 1; 6; 3; 3] = Return s1 /\
    evalRoll twos [6; 1; 6; 3; 3] = Return s2 /\
    evalRoll threes [6; 1; 6; 3; 3] = Return s3 /\
    evalRoll fours [6; 1; 6; 3; 3] = Return s4 /\
    evalRoll fives [6; 1; 6; 3; 3] = Return s5 /\
    evalRoll sixes [6; 1; 6; 3; 3] = Return s6 /\
    evalRoll chance [6; 1; 6; 3; 3] = Return (s1 + s2 + s3 + s4 + s5 + s6).
Proof.
  assert (Hd : Forall (fun d => 1 <= d <= 6) [6; 1; 6; 3; 3])
    by (repeat constructor; lia).
  split; [exact Hd|].
  exact (upper_section_adds_up [6; 1; 6; 3; 3] Hd).
Defined.

(** X5: lowering the threshold of a distribution rule keeps every non-zero
    score: whenever the rule asking for [n] of a kind pays, the rule asking
    for [m <= n] of a kind pays the same. *)
Theorem SumDistro_threshold_monotone (m n : Z) (dice : list Z) (s : Z) :
  m <= n -> s <> 0 ->
  evalRoll (SumDistro n) dice = Return s ->
  evalRoll (SumDistro m) dice = Return s.
Proof.
  intros Hmn Hs. rewrite !SumDistro_eval.
  destruct (existsb (fun c => c >=? n) (freq dice)) eqn:En;
    [|intros [= <-]; congruence].
  intros Hres. rewrite <- Hres.
  apply some_freq in En as (v & Hv & Hge).
  assert (existsb (fun c => c >=? m) (freq dice) = true) as ->; [|reflexivity].
  apply some_freq. exists v. split; [exact Hv|lia].
Qed.

Lemma SumDistro_threshold_monotone_witness :
  3 <= 4 /\ 26 <> 0 /\
  evalRoll fourOfKind [6; 6; 2; 6; 6] = Return 26 /\
  evalRoll threeOfKind [6; 6; 2; 6; 6] = Return 26.
Proof.
  assert (H34 : 3 <= 4) by lia.
  assert (H26 : 26 <> 0) by lia.
  assert (H4 : evalRoll (SumDistro 4) [6; 6; 2; 6; 6] = Return 26)
    by reflexivity.
  split; [exact H34 | split; [exact H26 | split; [exact H4|]]].
  exact (SumDistro_threshold_monotone 3 4 [6; 6; 2; 6; 6] 26 H34 H26 H4).
Defined.

(** X6: yahtzee looks at the first die only: on the empty array it returns
    0, and otherwise it pays exactly when the value of the first die occurs
    exactly five times in the array, whatever the length of the array. *)
Theorem Yahtzee_first_die (score : Z) (dice : list Z) :
  evalRoll (Yahtzee score) dice
  = Return match dice with
           | [] => 0
           | d :: _ => if occurrences dice d =? 5 then score else 0
           end.
Proof.
  destruct dice as [|d dice]; [reflexivity|]. apply Yahtzee_eval.
Qed.

(** X12: on a valid hand no exported rule scores more than 50. *)
Theorem evalRoll_at_most_50 (dice : list Z) (name : string) (r : Rule) :
  valid_hand dice ->
  In (name, r) exports ->
  exists n, evalRoll r dice = Return n /\ n <= 50.
Proof.
  intros [Hlen Hd] Hin.
  assert (forall v, 0 <= v <= 6 -> v * occurrences dice v <= 50) as Hupper.
  { intros v Hv. pose proof (occurrences_le_length dice v).
    pose proof (occurrences_nonneg dice v). rewrite Hlen in *. nia. }
  assert (forall k, exists n, evalRoll (SumDistro k) dice = Return n /\ n <= 50)
    as Hsum.
  { intros k. eexists. split; [apply SumDistro_eval|].
    pose proof (total_le dice Hd). rewrite Hlen in *.
    destruct (existsb _ _); lia. }
  assert (forall c score, score <= 50 ->
            exists n, (if c : bool then Return score else Return 0) = Return n
                      /\ n <= 50) as Hflat.
  { intros [] score Hs; eexists; (split; [reflexivity|lia]). }
  unfold exports in Hin. cbn [In] in Hin.
  repeat destruct Hin as [[= <- <-]|Hin]; try contradiction;
    try (eexists; split; [apply TotalOneNumber_eval|apply Hupper; lia]);
    try apply Hsum.
  - apply Hflat. lia.
  - cbn [smallStraight evalRoll]. cbv zeta.
    destruct (_ && _); [eexists; split; [reflexivity|lia]|].
    apply Hflat. lia.
  - apply Hflat. lia.
  - apply Hflat. lia.
Qed.

Lemma evalRoll_at_most_50_witness :
  valid_hand [4; 4; 4; 4; 4] /\ In ("yahtzee"%string, yahtzee) exports /\
  exists n, evalRoll yahtzee [4; 4; 4; 4; 4] = Return n /\ n <= 50.
Proof.
  assert (Hv : valid_hand [4; 4; 4; 4; 4])
    by (split; [reflexivity | repeat constructor; lia]).
  assert (Hin : In ("yahtzee"%string, yahtzee) exports)
    by (unfold exports; cbn [In]; tauto).
  split; [exact Hv | split; [exact Hin|]].
  exact (evalRoll_at_most_50 [4; 4; 4; 4; 4] "yahtzee" yahtzee Hv Hin).
Defined.

(** ** Full house on any five integers *)

Section FullHouseAny.
Implicit Types (dice l : list Z) (x : Z).

Lemma total_app l1 l2 : total (l1 ++ l2) = total l1 + total l2.
Proof.
  induction l1 as [|x l1 IH]; [reflexivity|].
  cbn [app total fold_right]. fold (total (l1 ++ l2)). fold (total l1). lia.
Qed.

Lemma total_pos_nonneg l : Forall (fun c => 1 <= c) l -> 0 <= total l.
Proof. induction 1; simpl; lia. Qed.

Lemma total_pos_zero l : Forall (fun c => 1 <= c) l -> total l = 0 -> l = [].
Proof.
  destruct 1 as [|x l Hx Hl]; [reflexivity|].
  cbn [total fold_right]. fold (total l).
  pose proof (total_pos_nonneg l Hl). lia.
Qed.

(** A list of positive numbers that holds its own total is that number
    alone. *)
Lemma total_pos_single l x :
  Forall (fun c => 1 <= c) l -> In x l -> total l = x -> l = [x].
Proof.
  intros Hl Hin Ht. apply in_split in Hin as (l1 & l2 & ->).
  rewrite total_app in Ht. cbn [total fold_right] in Ht. fold (total l2) in Ht.
  apply List.Forall_app in Hl as [Hl1 Hl2]. apply Forall_inv_tail in Hl2.
  pose proof (total_pos_nonneg l1 Hl1). pose proof (total_pos_nonneg l2 Hl2).
  rewrite (total_pos_zero l1 Hl1), (total_pos_zero l2 Hl2) by lia.
  reflexivity.
Qed.

Lemma two_and_three l :
  Forall (fun c => 1 <= c) l -> total l = 5 -> In 2 l -> In 3 l ->
  l = [2; 3] \/ l = [3; 2].
Proof.
  intros Hl Ht H2 H3. apply in_split in H2 as (l1 & l2 & ->).
  rewrite total_app in Ht. cbn [total fold_right] in Ht. fold (total l2) in Ht.
  apply List.Forall_app in Hl as [Hl1 Hl2]. apply Forall_inv_tail in Hl2.
  pose proof (total_pos_nonneg l1 Hl1). pose proof (total_pos_nonneg l2 Hl2).
  apply in_app_or in H3 as [H3|[H3|H3]]; [|discriminate H3|].
  - assert (total l1 = 3) as Ht1.
    { apply (in_split 3) in H3 as (a & b & ->).
      rewrite total_app in *. cbn [total fold_right] in *. fold (total b) in *.
      apply List.Forall_app in Hl1 as [Ha Hb]. apply Forall_inv_tail in Hb.
      pose proof (total_pos_nonneg a Ha). pose proof (total_pos_nonneg b Hb).
      lia. }
    rewrite (total_pos_single l1 3 Hl1 H3 Ht1).
    rewrite (total_pos_zero l2 Hl2) by lia. now right.
  - assert (total l2 = 3) as Ht2.
    { apply (in_split 3) in H3 as (a & b & ->).
      rewrite total_app in *. cbn [total fold_right] in *. fold (total b) in *.
      apply List.Forall_app in Hl2 as [Ha Hb]. apply Forall_inv_tail in Hb.
      pose proof (total_pos_nonneg a Ha). pose proof (total_pos_nonneg b Hb).
      lia. }
    rewrite (total_pos_single l2 3 Hl2 H3 Ht2).
    rewrite (total_pos_zero l1 Hl1) by lia. now left.
Qed.

(** What [sort] keeps, whatever order it settles on. *)
Lemma total_sort_insert x l : total (sort_insert x l) = x + total l.
Proof.
  induction l as [|y l IH]; [reflexivity|]. cbn [sort_insert].
  destruct (String.ltb _ _); [|reflexivity].
  cbn [total fold_right]. fold (total (sort_insert x l)). fold (total l). lia.
Qed.

Lemma total_sort l : total (sort l) = total l.
Proof.
  induction l as [|x l IH]; [reflexivity|].
  cbn [sort fold_right]. fold (sort l). rewrite total_sort_insert, IH.
  reflexivity.
Qed.

Lemma In_sort_insert x y l : In y (sort_insert x l) <-> y = x \/ In y l.
Proof.
  induction l as [|z l IH]; cbn [sort_insert In]; [intuition|].
  destruct (String.ltb _ _); cbn [In]; [rewrite IH|]; intuition.
Qed.

Lemma In_sort y l : In y (sort l) <-> In y l.
Proof.
  induction l as [|x l IH]; [reflexivity|].
  cbn [sort fold_right In]. fold (sort l). rewrite In_sort_insert, IH.
  intuition.
Qed.

Lemma Forall_sort (P : Z -> Prop) l : Forall P l -> Forall P (sort l).
Proof.
  rewrite !List.Forall_forall. intros H y Hy. apply H. now apply In_sort.
Qed.

(** The test of [FullHouse] on the sorted frequencies of five dice. *)
Lemma sorted_two_three l :
  Forall (fun c => 1 <= c) l -> total l = 5 ->
  strict_eq (sort l !! 0%nat) 2 && strict_eq (sort l !! 1%nat) 3 = true
  <-> In 2 l /\ In 3 l.
Proof.
  intros Hl Ht. split.
  - intros Hc. apply andb_true_iff in Hc as [H0 H1].
    destruct (sort l) as [|a [|b rest]] eqn:Es; cbn in H0, H1;
      try discriminate.
    apply Z.eqb_eq in H0, H1. subst a b.
    split; apply In_sort; rewrite Es; cbn [In]; tauto.
  - intros [H2 H3].
    destruct (two_and_three l Hl Ht H2 H3) as [-> | ->]; reflexivity.
Qed.

Lemma is_full_house_freq dice :
  is_full_house dice <-> In 2 (freq dice) /\ In 3 (freq dice).
Proof.
  unfold is_full_house. rewrite !In_freq. split.
  - intros (a & b & Ha & Hb). split; [exists a|exists b];
      (split; [apply occurrences_pos_elem; lia|congruence]).
  - intros [(a & _ & Ha) (b & _ & Hb)]. now exists a, b.
Qed.

Lemma FullHouse_test dice :
  length dice = 5%nat ->
  strict_eq (sort (freq dice) !! 0%nat) 2
  && strict_eq (sort (freq dice) !! 1%nat) 3 = true
  <-> is_full_house dice.
Proof.
  intros Hlen. rewrite is_full_house_freq.
  apply sorted_two_three; [apply freq_positive|].
  unfold freq. rewrite total_freq_loop, Hlen. reflexivity.
Qed.

End FullHouseAny.

(** X7: on any five integers, whatever their values, a [FullHouse] rule
    pays its score exactly when one value occurs exactly twice and another
    exactly three times, and 0 otherwise. *)
Theorem FullHouse_five_dice (score : Z) (dice : list Z) :
  length dice = 5%nat ->
  (is_full_house dice -> evalRoll (FullHouse score) dice = Return score) /\
  (~ is_full_house dice -> evalRoll (FullHouse score) dice = Return 0).
Proof.
  intros Hlen. pose proof (FullHouse_test dice Hlen) as Htest.
  cbn [evalRoll]. cbv zeta.
  destruct (strict_eq _ 2 && strict_eq _ 3); split; intros H;
    try reflexivity.
  - exfalso. apply H. now apply Htest.
  - apply Htest in H. discriminate H.
Qed.

Lemma FullHouse_five_dice_witness :
  length [9; -1; 9; -1; -1] = 5%nat /\ is_full_house [9; -1; 9; -1; -1] /\
  evalRoll (FullHouse 25) [9; -1; 9; -1; -1] = Return 25.
Proof.
  assert (Hlen : length [9; -1; 9; -1; -1] = 5%nat) by reflexivity.
  assert (Hf : is_full_house [9; -1; 9; -1; -1])
    by (exists 9, (-1); split; reflexivity).
  split; [exact Hlen | split; [exact Hf|]].
  exact (proj1 (FullHouse_five_dice 25 [9; -1; 9; -1; -1] Hlen) Hf).
Defined.

(** ** Straights on five dice *)

Section StraightsOnFive.
Implicit Types (dice : list Z).

Lemma In_remove_dups dice x : In x (remove_dups dice) <-> In x dice.
Proof. rewrite <- !list_elem_of_In. apply elem_of_remove_dups. Qed.

Lemma remove_dups_NoDup dice : List.NoDup (remove_dups dice).
Proof. apply NoDup_ListNoDup, NoDup_remove_dups. Qed.

Lemma distinct_values_le dice : (distinct_values dice <= length dice)%nat.
Proof.
  apply List.NoDup_incl_length; [apply remove_dups_NoDup|].
  intros x. apply In_remove_dups.
Qed.

(** Distinct values that are all among the dice are at most as many as the
    distinct values of the dice. *)
Lemma incl_distinct_values (l : list Z) dice :
  List.NoDup l -> incl l dice -> (length l <= distinct_values dice)%nat.
Proof.
  intros Hnd Hincl. apply List.NoDup_incl_length; [exact Hnd|].
  intros x Hx. apply In_remove_dups. now apply Hincl.
Qed.

(** As many distinct values as a duplicate-free list that holds them all:
    then the dice hold the whole list. *)
Lemma distinct_values_fill (l : list Z) dice :
  (length l <= distinct_values dice)%nat -> incl dice l -> incl l dice.
Proof.
  intros Hlen Hincl x Hx. apply In_remove_dups. revert x Hx.
  apply List.NoDup_length_incl; [apply remove_dups_NoDup|exact Hlen|].
  intros x Hx. apply Hincl. now apply In_remove_dups.
Qed.

Lemma NoDup_1_5 : List.NoDup [1; 2; 3; 4; 5].
Proof. repeat constructor; cbn [In]; lia. Qed.

Lemma NoDup_2_6 : List.NoDup [2; 3; 4; 5; 6].
Proof. repeat constructor; cbn [In]; lia. Qed.

Lemma five_consecutive_large dice :
  valid_hand dice -> five_consecutive dice <-> is_large_straight dice.
Proof.
  intros [Hlen Hd]. pose proof (distinct_values_le dice) as Hle.
  assert (length dice <= 5)%nat as Hlen' by lia.
  pose proof (not_all_faces dice Hlen') as Hnot.
  unfold five_consecutive, is_large_straight. split.
  - intros [Hincl|Hincl].
    + pose proof (incl_distinct_values _ dice NoDup_1_5 Hincl) as Hge.
      cbn [length] in Hge. split; [lia|]. intros [_ H6]. apply Hnot.
      unfold faces. cbn [In]. intros d Hf.
      repeat destruct Hf as [<-|Hf]; try contradiction; try exact H6;
        apply Hincl; cbn [In]; tauto.
    + pose proof (incl_distinct_values _ dice NoDup_2_6 Hincl) as Hge.
      cbn [length] in Hge. split; [lia|]. intros [H1 _]. apply Hnot.
      unfold faces. cbn [In]. intros d Hf.
      repeat destruct Hf as [<-|Hf]; try contradiction; try exact H1;
        apply Hincl; cbn [In]; tauto.
  - intros [Hdist Hnot16]. rewrite List.Forall_forall in Hd.
    destruct (in_dec Z.eq_dec 1 dice) as [H1|H1].
    + left. apply distinct_values_fill; [cbn [length]; lia|].
      intros x Hx. pose proof (Hd x Hx) as Hr. cbn [In].
      assert (x <> 6) by (intros ->; tauto). lia.
    + right. apply distinct_values_fill; [cbn [length]; lia|].
      intros x Hx. pose proof (Hd x Hx) as Hr. cbn [In].
      assert (x <> 1) by (intros ->; tauto). lia.
Qed.

Lemma middle_run_cond dice :
  (length dice <= 5)%nat -> middle_run dice <-> small_straight_cond dice.
Proof.
  intros Hlen. pose proof (not_all_faces dice Hlen) as Hnot.
  unfold middle_run, small_straight_cond.
  destruct (has_reflect dice 1), (has_reflect dice 2), (has_reflect dice 3),
           (has_reflect dice 4), (has_reflect dice 5), (has_reflect dice 6);
    try tauto.
  exfalso. apply Hnot. unfold faces. cbn [In].
  intros d Hf. repeat destruct Hf as [<-|Hf]; tauto.
Qed.

Lemma five_consecutive_middle_run dice : five_consecutive dice -> middle_run dice.
Proof.
  unfold five_consecutive, middle_run.
  intros [H|H]; left; repeat split; apply H; cbn [In]; tauto.
Qed.

(** The test of [LargeStraight]. *)
Lemma LargeStraight_test dice :
  (Set_.size (Set_.of_array dice) =? 5)
  && (negb (Set_.has (Set_.of_array dice) 1)
      || negb (Set_.has (Set_.of_array dice) 6)) = true
  <-> is_large_straight dice.
Proof.
  unfold is_large_straight, distinct_values. rewrite size_remove_dups.
  rewrite andb_true_iff, Z.eqb_eq.
  destruct (has_reflect dice 1), (has_reflect dice 6); cbn [negb orb];
    intuition; try lia; discriminate.
Qed.


End StraightsOnFive.

(** X8: on a valid hand a [LargeStraight] rule pays its score exactly when
    the dice hold 1 to 5 or 2 to 6, and 0 otherwise. *)
Theorem LargeStraight_five_consecutive (score : Z) (dice : list Z) :
  valid_hand dice ->
  (five_consecutive dice -> evalRoll (LargeStraight score) dice = Return score)
  /\ (~ five_consecutive dice -> evalRoll (LargeStraight score) dice = Return 0).
Proof.
  intros Hv. pose proof (five_consecutive_large dice Hv) as Hiff. split.
  - intros H. apply LargeStraight_hit. now apply Hiff.
  - intros H. apply LargeStraight_miss. intros Hl. apply H. now apply Hiff.
Qed.

Lemma LargeStraight_five_consecutive_witness :
  valid_hand [3; 1; 6; 4; 5] /\ ~ five_consecutive [3; 1; 6; 4; 5] /\
  evalRoll (LargeStraight 40) [3; 1; 6; 4; 5] = Return 0.
Proof.
  assert (Hv : valid_hand [3; 1; 6; 4; 5])
    by (split; [reflexivity | repeat constructor; lia]).
  assert (Hn : ~ five_consecutive [3; 1; 6; 4; 5]).
  { intros [H|H].
    - specialize (H 2 (or_intror (or_introl eq_refl))). cbn [In] in H.
      repeat destruct H as [H|H]; try discriminate H. exact H.
    - specialize (H 2 (or_introl eq_refl)). cbn [In] in H.
      repeat destruct H as [H|H]; try discriminate H. exact H. }
  split; [exact Hv | split; [exact Hn|]].
  exact (proj2 (LargeStraight_five_consecutive 40 [3; 1; 6; 4; 5] Hv) Hn).
Defined.

(** X9: on at most five dice a [SmallStraight] rule pays its score exactly
    when the dice hold 2, 3 and 4, or hold 3, 4 and 5; no fourth value is
    asked for. *)
Theorem SmallStraight_middle_run (score : Z) (dice : list Z) :
  (length dice <= 5)%nat ->
  (middle_run dice -> evalRoll (SmallStraight score) dice = Return score) /\
  (~ middle_run dice -> evalRoll (SmallStraight score) dice = Return 0).
Proof.
  intros Hlen. pose proof (middle_run_cond dice Hlen) as Hiff. split.
  - intros H. apply SmallStraight_hit. now apply Hiff.
  - intros H. apply SmallStraight_miss. intros Hc. apply H. now apply Hiff.
Qed.

Lemma SmallStraight_middle_run_witness :
  (length [3; 5; 4; 3; 3] <= 5)%nat /\ middle_run [3; 5; 4; 3; 3] /\
  evalRoll (SmallStraight 30) [3; 5; 4; 3; 3] = Return 30.
Proof.
  assert (Hlen : (length [3; 5; 4; 3; 3] <= 5)%nat) by (cbn [length]; lia).
  assert (Hm : middle_run [3; 5; 4; 3; 3]) by (right; cbn [In]; tauto).
  split; [exact Hlen | split; [exact Hm|]].
  exact (proj1 (SmallStraight_middle_run 30 [3; 5; 4; 3; 3] Hlen) Hm).
Defined.

(** X11: on a valid hand, whenever largeStraight pays 40, smallStraight
    pays 30. *)
Theorem large_straight_pays_small (dice : list Z) :
  valid_hand dice ->
  evalRoll largeStraight dice = Return 40 ->
  evalRoll smallStraight dice = Return 30.
Proof.
  intros Hv Hlarge. apply SmallStraight_hit.
  apply middle_run_cond; [destruct Hv as [Hlen _]; lia|].
  apply five_consecutive_middle_run, (five_consecutive_large dice Hv).
  apply LargeStraight_test.
  unfold largeStraight in Hlarge. cbn [evalRoll] in Hlarge. cbv zeta in Hlarge.
  destruct (_ && _); [reflexivity|discriminate Hlarge].
Qed.

Lemma large_straight_pays_small_witness :
  valid_hand [5; 3; 2; 6; 4] /\
  evalRoll largeStraight [5; 3; 2; 6; 4] = Return 40 /\
  evalRoll smallStraight [5; 3; 2; 6; 4] = Return 30.
Proof.
  assert (Hv : valid_hand [5; 3; 2; 6; 4])
    by (split; [reflexivity | repeat constructor; lia]).
  assert (Hl : evalRoll largeStraight [5; 3; 2; 6; 4] = Return 40)
    by (vm_compute; reflexivity).
  split; [exact Hv | split; [exact Hl|]].
  exact (large_straight_pays_small [5; 3; 2; 6; 4] Hv Hl).
Defined.

(** ** What a hand scores across the categories *)

(** X10: a valid hand of five equal dice scores 0 as full house and as small
    and large straight, while threeOfKind and fourOfKind pay the sum of the
    dice. *)
Theorem five_equal_dice_scores (dice : list Z) :
  valid_hand dice -> all_same dice ->
  evalRoll fullHouse dice = Return 0 /\
  evalRoll smallStraight dice = Return 0 /\
  evalRoll largeStraight dice = Return 0 /\
  evalRoll threeOfKind dice = Return (total dice) /\
  evalRoll fourOfKind dice = Return (total dice).
Proof.
  intros Hv Hs. pose proof Hv as [Hlen _].
  assert (forall a b, a <> b -> In a dice -> In b dice -> False) as Hdiff.
  { intros a b Hne Ha Hb. apply Hne. now apply Hs. }
  assert (exists d, occurrences dice d = 5) as [d Hd].
  { destruct dice as [|d dice]; [discriminate Hlen|]. exists d.
    rewrite (proj2 (occurrences_all d dice) Hs), Hlen. reflexivity. }
  repeat split.
  - unfold fullHouse. cbn [evalRoll]. cbv zeta.
    destruct (strict_eq _ 2 && strict_eq _ 3) eqn:E; [|reflexivity].
    apply (FullHouse_test dice Hlen) in E as (a & b & Ha & Hb).
    exfalso. apply (Hdiff a b).
    + intros ->. lia.
    + apply occurrences_pos_elem. lia.
    + apply occurrences_pos_elem. lia.
  - apply SmallStraight_miss. unfold small_straight_cond.
    intros [(H2 & H3 & _)|(H3 & H4 & _)].
    + now apply (Hdiff 2 3).
    + now apply (Hdiff 3 4).
  - apply LargeStraight_miss. intros Hl.
    apply (five_consecutive_large dice Hv) in Hl as [H|H];
      apply (Hdiff 3 4); try apply H; cbn [In]; try tauto; lia.
  - apply SumDistro_hit; [lia|]. exists d. lia.
  - apply SumDistro_hit; [lia|]. exists d. lia.
Qed.

Lemma five_equal_dice_scores_witness :
  valid_hand [6; 6; 6; 6; 6] /\ all_same [6; 6; 6; 6; 6] /\
  evalRoll fullHouse [6; 6; 6; 6; 6] = Return 0 /\
  evalRoll smallStraight [6; 6; 6; 6; 6] = Return 0 /\
  evalRoll largeStraight [6; 6; 6; 6; 6] = Return 0 /\
  evalRoll threeOfKind [6; 6; 6; 6; 6] = Return 30 /\
  evalRoll fourOfKind [6; 6; 6; 6; 6] = Return 30.
Proof.
  assert (Hv : valid_hand [6; 6; 6; 6; 6])
    by (split; [reflexivity | repeat constructor; lia]).
  assert (Hs : all_same [6; 6; 6; 6; 6]).
  { intros a b Ha Hb. cbn [In] in Ha, Hb.
    repeat destruct Ha as [Ha|Ha]; repeat destruct Hb as [Hb|Hb];
      congruence || contradiction. }
  split; [exact Hv | split; [exact Hs|]].
  exact (five_equal_dice_scores [6; 6; 6; 6; 6] Hv Hs).
Defined.



(** ** The order of the dice *)

Section Order.
Implicit Types (dice : list Z).










End Order.



(** * The Die component *)

Section DieClasses.
Import Die.
Local Open Scope string_scope.

(** The icon word for a die value, under the default names. *)
Lemma default_icon_word (v : Z) :
  interpolate (at_index defaultProps_iconNumText (v - 1)%Z)
  = if (v =? 1)%Z then "one" else if (v =? 2)%Z then "two"
    else if (v =? 3)%Z then "three" else if (v =? 4)%Z then "four"
    else if (v =? 5)%Z then "five" else if (v =? 6)%Z then "six"
    else "undefined".
Proof.
  assert (v < 1 \/ v = 1 \/ v = 2 \/ v = 3 \/ v = 4 \/ v = 5 \/ v = 6 \/ 6 < v)%Z
    as Hcases by lia.
  destruct Hcases as [Hlow|[->|[->|[->|[->|[->|[->|Hhigh]]]]]]];
    try reflexivity.
  - unfold at_index. destruct (Z.ltb_spec (v - 1) 0); [|lia].
    destruct (Z.eqb_spec v 1), (Z.eqb_spec v 2), (Z.eqb_spec v 3),
             (Z.eqb_spec v 4), (Z.eqb_spec v 5), (Z.eqb_spec v 6);
      try lia; reflexivity.
  - unfold at_index. destruct (Z.ltb_spec (v - 1) 0); [lia|].
    assert (nth_error defaultProps_iconNumText (Z.to_nat (v - 1)%Z) = None) as ->.
    { apply nth_error_None. cbn [defaultProps_iconNumText length]. lia. }
    destruct (Z.eqb_spec v 1), (Z.eqb_spec v 2), (Z.eqb_spec v 3),
             (Z.eqb_spec v 4), (Z.eqb_spec v 5), (Z.eqb_spec v 6);
      try lia; reflexivity.
Qed.

(** With the default names, [render] is decided by the value, taken among
    its seven cases, and the two flags. *)
Ltac die_cases p :=
  destruct p as [v l i icons r]; cbn [iconNumText val locked rolling] in *;
  subst icons; unfold has_class, render;
  cbn [className iconNumText val locked rolling];
  rewrite default_icon_word;
  destruct (Z.eqb_spec v 1), (Z.eqb_spec v 2), (Z.eqb_spec v 3),
           (Z.eqb_spec v 4), (Z.eqb_spec v 5), (Z.eqb_spec v 6);
  try lia; destruct r, l.

Lemma has_state_class (p : props) :
  iconNumText p = defaultProps_iconNumText ->
  has_class "Die-locked" (render p) = locked p && negb (rolling p) /\
  has_class "Die-rolling" (render p) = rolling p && negb (locked p).
Proof. intros Hicons. die_cases p; split; reflexivity. Qed.

Lemma has_icon_class (p : props) :
  iconNumText p = defaultProps_iconNumText ->
  has_class "fa-dice-undefined" (render p)
  = negb ((1 <=? val p)%Z && (val p <=? 6)%Z).
Proof.
  intros Hicons. die_cases p; subst;
    try reflexivity;
    (destruct (Z.leb_spec 1 v), (Z.leb_spec v 6); try lia; reflexivity).
Qed.

End DieClasses.

(** X14: with the default icon names, the element carries the class
    Die-locked exactly when the die is locked and not rolling, and the
    class Die-rolling exactly when it is rolling and not locked: a die that
    is both gets neither, the two names being joined without a space. *)
Theorem Die_state_classes (p : Die.props) :
  Die.iconNumText p = Die.defaultProps_iconNumText ->
  has_class "Die-locked" (Die.render p)
  = Die.locked p && negb (Die.rolling p) /\
  has_class "Die-rolling" (Die.render p)
  = Die.rolling p && negb (Die.locked p) /\
  has_class "Die" (Die.render p) = true.
Proof.
  intros Hicons. destruct (has_state_class p Hicons) as [Hl Hr].
  split; [exact Hl | split; [exact Hr|]].
  unfold has_class, Die.render. cbn [Die.className].
  destruct (Die.rolling p), (Die.locked p); reflexivity.
Qed.

Lemma Die_state_classes_witness :
  Die.iconNumText
    {| Die.val := 3; Die.locked := true; Die.idx := 2;
       Die.iconNumText := Die.defaultProps_iconNumText; Die.rolling := true |}
  = Die.defaultProps_iconNumText /\
  Die.className
    (Die.render
       {| Die.val := 3; Die.locked := true; Die.idx := 2;
          Die.iconNumText := Die.defaultProps_iconNumText;
          Die.rolling := true |})
  = "Die fa-solid fa-dice-three Die-rollingDie-locked"%string /\
  has_class "Die-locked"
    (Die.render
       {| Die.val := 3; Die.locked := true; Die.idx := 2;
          Die.iconNumText := Die.defaultProps_iconNumText;
          Die.rolling := true |})
  = false.
Proof.
  split; [reflexivity | split; [reflexivity|]].
  exact (proj1 (Die_state_classes
                  {| Die.val := 3; Die.locked := true; Die.idx := 2;
                     Die.iconNumText := Die.defaultProps_iconNumText;
                     Die.rolling := true |} eq_refl)).
Defined.

(** X15: with the default icon names, the element carries the icon class
    fa-dice-undefined exactly when the value of the die is outside 1..6. *)
Theorem Die_icon_out_of_range (p : Die.props) :
  Die.iconNumText p = Die.defaultProps_iconNumText ->
  has_class "fa-dice-undefined" (Die.render p) = true
  <-> ~ (1 <= Die.val p <= 6).
Proof.
  intros Hicons. rewrite (has_icon_class p Hicons).
  destruct (Z.leb_spec 1 (Die.val p)) as [Hlo|Hlo],
           (Z.leb_spec (Die.val p) 6) as [Hhi|Hhi];
    cbn [andb negb]; split; intros Hc; try lia; try reflexivity;
    try discriminate Hc.
Qed.

Lemma Die_icon_out_of_range_witness :
  Die.iconNumText
    {| Die.val := 0; Die.locked := false; Die.idx := 0;
       Die.iconNumText := Die.defaultProps_iconNumText; Die.rolling := false |}
  = Die.defaultProps_iconNumText /\
  has_class "fa-dice-undefined"
    (Die.render
       {| Die.val := 0; Die.locked := false; Die.idx := 0;
          Die.iconNumText := Die.defaultProps_iconNumText;
          Die.rolling := false |})
  = true.
Proof.
  split; [reflexivity|].
  apply (Die_icon_out_of_range
           {| Die.val := 0; Die.locked := false; Die.idx := 0;
              Die.iconNumText := Die.defaultProps_iconNumText;
              Die.rolling := false |} eq_refl).
  cbn [Die.val]. lia.
Defined.
